(** * Rustdoc implementor fragment [implementors/core/ops/drop/trait.Drop.js]

    The script is one immediately-invoked function.  It builds the object
    [implementors] (one property per crate, each an array of records) and
    then hands it to the page: through the global function
    [window.register_implementors] when that property is truthy, and through
    the global property [window.pending_implementors] otherwise.

    The embedding keeps JavaScript's data as data: values are an inductive
    type, an object is its list of own properties in creation order, the
    global object is a finite map from property names to values, and a
    function value is a name whose behaviour is supplied by the host page.
    The table travels as a value: once it is passed to the callback or
    stored in the pending slot the script never reads it again, so nothing
    the page does to it afterwards is visible to the script. *)

From Stdlib Require Import ZArith List String Ascii Bool SpecFloat.
From stdpp Require Import base option gmap strings list fin_maps.

Local Open Scope string_scope.

(** ** JavaScript values *)

(** Function values are opaque to the script: it only reads, tests and calls
    them.  A function is therefore a name; what it does is the host's
    business (see [host] below). *)
Definition fid := nat.

#[warnings="-register-all"]
Inductive value : Type :=
| VUndef                                  (* undefined *)
| VNull                                   (* null *)
| VBool (b : bool)
| VNum (x : spec_float)                   (* IEEE-754 double *)
| VBigInt (n : Z)
| VStr (s : string)
| VSymbol (description : string)
| VArr (elems : list value)               (* array, elements by index *)
| VObj (props : list (string * value))    (* own properties, creation order *)
| VWindow                                 (* the global object itself *)
| VFun (f : fid).

(** [ToBoolean] of ECMA-262 (7.1.2): the test performed by [if (e)]. *)
Definition to_boolean (v : value) : bool :=
  match v with
  | VUndef | VNull => false
  | VBool b => b
  | VNum S754_nan | VNum (S754_zero _) => false
  | VNum _ => true
  | VBigInt n => negb (Z.eqb n 0)
  | VStr s => negb (String.eqb s "")
  | VSymbol _ | VArr _ | VObj _ | VWindow | VFun _ => true
  end.

(** [IsCallable]: only function values can be called. *)
Definition is_callable (v : value) : bool :=
  match v with VFun _ => true | _ => false end.

(** ** Objects as ordered property lists *)

(** [o[k]] on an ordinary object: the first (and only) property named [k]. *)
Fixpoint obj_get (k : string) (o : list (string * value)) : option value :=
  match o with
  | [] => None
  | (k', v) :: o' => if String.eqb k' k then Some v else obj_get k o'
  end.

(** [o[k] = v] on an ordinary object: an existing property keeps its place
    and takes the new value, a new property is added after the others. *)
Fixpoint obj_set (k : string) (v : value) (o : list (string * value))
  : list (string * value) :=
  match o with
  | [] => [(k, v)]
  | (k', v') :: o' =>
      if String.eqb k' k then (k', v) :: o' else (k', v') :: obj_set k v o'
  end.

Definition obj_keys (o : list (string * value)) : list string := map fst o.

(** ** The implementor table *)

(** The double-quote character (code 34), which the script's string
    literals write with a backslash escape. *)
Definition dquote : string := String "034"%char EmptyString.

(** [qt s] is [s] between two double quotes, as in the markup attribute
    class=trait of the descriptors. *)
Definition qt (s : string) : string := dquote +:+ s +:+ dquote.

(** The object literal [{text: t, synthetic: b, types: [n1, ..., nk]}]. *)
Definition record (text : string) (synthetic : bool) (types : list string)
  : value :=
  VObj [ ("text", VStr text);
         ("synthetic", VBool synthetic);
         ("types", VArr (map VStr types)) ].

(** The seven array literals, one per assignment, in the order of the
    script.  The comma after the last element of each literal adds no
    element. *)

Definition impls_bzip2 : list value :=
  [ record
      ("impl&lt;W:&nbsp;<a class=" +:+ qt "trait" +:+ " href="
       +:+ qt "https://doc.rust-lang.org/nightly/std/io/trait.Write.html"
       +:+ " title=" +:+ qt "trait std::io::Write"
       +:+ ">Write</a>&gt; <a class=" +:+ qt "trait" +:+ " href="
       +:+ qt "https://doc.rust-lang.org/nightly/core/ops/drop/trait.Drop.html"
       +:+ " title=" +:+ qt "trait core::ops::drop::Drop"
       +:+ ">Drop</a> for <a class=" +:+ qt "struct" +:+ " href="
       +:+ qt "bzip2/write/struct.BzEncoder.html" +:+ " title="
       +:+ qt "struct bzip2::write::BzEncoder" +:+ ">BzEncoder</a>&lt;W&gt;")
      false
      ["bzip2::write::BzEncoder"];
    record
      ("impl&lt;W:&nbsp;<a class=" +:+ qt "trait" +:+ " href="
       +:+ qt "https://doc.rust-lang.org/nightly/std/io/trait.Write.html"
       +:+ " title=" +:+ qt "trait std::io::Write"
       +:+ ">Write</a>&gt; <a class=" +:+ qt "trait" +:+ " href="
       +:+ qt "https://doc.rust-lang.org/nightly/core/ops/drop/trait.Drop.html"
       +:+ " title=" +:+ qt "trait core::ops::drop::Drop"
       +:+ ">Drop</a> for <a class=" +:+ qt "struct" +:+ " href="
       +:+ qt "bzip2/write/struct.BzDecoder.html" +:+ " title="
       +:+ qt "struct bzip2::write::BzDecoder" +:+ ">BzDecoder</a>&lt;W&gt;")
      false
      ["bzip2::write::BzDecoder"] ].

Definition impls_flate2 : list value :=
  [ record
      ("impl&lt;W:&nbsp;<a class=" +:+ qt "trait" +:+ " href="
       +:+ qt "https://doc.rust-lang.org/nightly/std/io/trait.Write.html"
       +:+ " title=" +:+ qt "trait std::io::Write"
       +:+ ">Write</a>&gt; <a class=" +:+ qt "trait" +:+ " href="
       +:+ qt "https://doc.rust-lang.org/nightly/core/ops/drop/trait.Drop.html"
       +:+ " title=" +:+ qt "trait core::ops::drop::Drop"
       +:+ ">Drop</a> for <a class=" +:+ qt "struct" +:+ " href="
       +:+ qt "flate2/write/struct.GzEncoder.html" +:+ " title="
       +:+ qt "struct flate2::write::GzEncoder" +:+ ">GzEncoder</a>&lt;W&gt;")
      false
      ["flate2::gz::write::GzEncoder"] ].

Definition impls_generic_array : list value :=
  [ record
      ("impl&lt;T, N&gt; <a class=" +:+ qt "trait" +:+ " href="
       +:+ qt "https://doc.rust-lang.org/nightly/core/ops/drop/trait.Drop.html"
       +:+ " title=" +:+ qt "trait core::ops::drop::Drop"
       +:+ ">Drop</a> for <a class=" +:+ qt "struct" +:+ " href="
       +:+ qt "generic_array/iter/struct.GenericArrayIter.html" +:+ " title="
       +:+ qt "struct generic_array::iter::GenericArrayIter"
       +:+ ">GenericArrayIter</a>&lt;T, N&gt; <span class="
       +:+ qt "where fmt-newline"
       +:+ ">where<br>&nbsp;&nbsp;&nbsp;&nbsp;N: <a class=" +:+ qt "trait"
       +:+ " href=" +:+ qt "generic_array/trait.ArrayLength.html" +:+ " title="
       +:+ qt "trait generic_array::ArrayLength"
       +:+ ">ArrayLength</a>&lt;T&gt;,&nbsp;</span>")
      false
      ["generic_array::iter::GenericArrayIter"] ].

Definition impls_regex_syntax : list value :=
  [ record
      ("impl <a class=" +:+ qt "trait" +:+ " href="
       +:+ qt "https://doc.rust-lang.org/nightly/core/ops/drop/trait.Drop.html"
       +:+ " title=" +:+ qt "trait core::ops::drop::Drop"
       +:+ ">Drop</a> for <a class=" +:+ qt "enum" +:+ " href="
       +:+ qt "regex_syntax/ast/enum.Ast.html" +:+ " title="
       +:+ qt "enum regex_syntax::ast::Ast" +:+ ">Ast</a>")
      false
      ["regex_syntax::ast::Ast"];
    record
      ("impl <a class=" +:+ qt "trait" +:+ " href="
       +:+ qt "https://doc.rust-lang.org/nightly/core/ops/drop/trait.Drop.html"
       +:+ " title=" +:+ qt "trait core::ops::drop::Drop"
       +:+ ">Drop</a> for <a class=" +:+ qt "enum" +:+ " href="
       +:+ qt "regex_syntax/ast/enum.ClassSet.html" +:+ " title="
       +:+ qt "enum regex_syntax::ast::ClassSet" +:+ ">ClassSet</a>")
      false
      ["regex_syntax::ast::ClassSet"];
    record
      ("impl <a class=" +:+ qt "trait" +:+ " href="
       +:+ qt "https://doc.rust-lang.org/nightly/core/ops/drop/trait.Drop.html"
       +:+ " title=" +:+ qt "trait core::ops::drop::Drop"
       +:+ ">Drop</a> for <a class=" +:+ qt "struct" +:+ " href="
       +:+ qt "regex_syntax/hir/struct.Hir.html" +:+ " title="
       +:+ qt "struct regex_syntax::hir::Hir" +:+ ">Hir</a>")
      false
      ["regex_syntax::hir::Hir"] ].

Definition impls_syn : list value :=
  [ record
      ("impl&lt;'a&gt; <a class=" +:+ qt "trait" +:+ " href="
       +:+ qt "https://doc.rust-lang.org/nightly/core/ops/drop/trait.Drop.html"
       +:+ " title=" +:+ qt "trait core::ops::drop::Drop"
       +:+ ">Drop</a> for <a class=" +:+ qt "struct" +:+ " href="
       +:+ qt "syn/parse/struct.ParseBuffer.html" +:+ " title="
       +:+ qt "struct syn::parse::ParseBuffer" +:+ ">ParseBuffer</a>&lt;'a&gt;")
      false
      ["syn::parse::ParseBuffer"] ].

Definition impls_thread_local : list value :=
  [ record
      ("impl&lt;T:&nbsp;?<a class=" +:+ qt "trait" +:+ " href="
       +:+ qt "https://doc.rust-lang.org/nightly/core/marker/trait.Sized.html"
       +:+ " title=" +:+ qt "trait core::marker::Sized"
       +:+ ">Sized</a> + <a class=" +:+ qt "trait" +:+ " href="
       +:+ qt "https://doc.rust-lang.org/nightly/core/marker/trait.Send.html"
       +:+ " title=" +:+ qt "trait core::marker::Send"
       +:+ ">Send</a>&gt; <a class=" +:+ qt "trait" +:+ " href="
       +:+ qt "https://doc.rust-lang.org/nightly/core/ops/drop/trait.Drop.html"
       +:+ " title=" +:+ qt "trait core::ops::drop::Drop"
       +:+ ">Drop</a> for <a class=" +:+ qt "struct" +:+ " href="
       +:+ qt "thread_local/struct.ThreadLocal.html" +:+ " title="
       +:+ qt "struct thread_local::ThreadLocal" +:+ ">ThreadLocal</a>&lt;T&gt;")
      false
      ["thread_local::ThreadLocal"] ].

Definition impls_zip : list value :=
  [ record
      ("impl&lt;'a&gt; <a class=" +:+ qt "trait" +:+ " href="
       +:+ qt "https://doc.rust-lang.org/nightly/core/ops/drop/trait.Drop.html"
       +:+ " title=" +:+ qt "trait core::ops::drop::Drop"
       +:+ ">Drop</a> for <a class=" +:+ qt "struct" +:+ " href="
       +:+ qt "zip/read/struct.ZipFile.html" +:+ " title="
       +:+ qt "struct zip::read::ZipFile" +:+ ">ZipFile</a>&lt;'a&gt;")
      false
      ["zip::read::ZipFile"];
    record
      ("impl&lt;W:&nbsp;<a class=" +:+ qt "trait" +:+ " href="
       +:+ qt "https://doc.rust-lang.org/nightly/std/io/trait.Write.html"
       +:+ " title=" +:+ qt "trait std::io::Write" +:+ ">Write</a> + <a class="
       +:+ qt "trait" +:+ " href="
       +:+ qt "https://doc.rust-lang.org/nightly/std/io/trait.Seek.html"
       +:+ " title=" +:+ qt "trait std::io::Seek" +:+ ">Seek</a>&gt; <a class="
       +:+ qt "trait" +:+ " href="
       +:+ qt "https://doc.rust-lang.org/nightly/core/ops/drop/trait.Drop.html"
       +:+ " title=" +:+ qt "trait core::ops::drop::Drop"
       +:+ ">Drop</a> for <a class=" +:+ qt "struct" +:+ " href="
       +:+ qt "zip/write/struct.ZipWriter.html" +:+ " title="
       +:+ qt "struct zip::write::ZipWriter" +:+ ">ZipWriter</a>&lt;W&gt;")
      false
      ["zip::write::ZipWriter"] ].

(** The statements [implementors[crate] = [...]] in program order. *)
Definition assignments : list (string * value) :=
  [ ("bzip2", VArr impls_bzip2);
    ("flate2", VArr impls_flate2);
    ("generic_array", VArr impls_generic_array);
    ("regex_syntax", VArr impls_regex_syntax);
    ("syn", VArr impls_syn);
    ("thread_local", VArr impls_thread_local);
    ("zip", VArr impls_zip) ].

(** [var implementors = {};] followed by the assignments. *)
Definition implementors_props : list (string * value) :=
  fold_left (fun o kv => obj_set (fst kv) (snd kv) o) assignments [].

Definition implementors : value := VObj implementors_props.

(** ** The page: global object, effects and completions *)

(** The two properties of [window] the script names. *)
Definition register_implementors : string := "register_implementors".
Definition pending_implementors : string := "pending_implementors".

(** [window.k], for a plain data property: reading a property that is not
    there gives [undefined]. *)
Definition get (w : gmap string value) (k : string) : value :=
  default VUndef (w !! k).

(** [window.k = v] on the global object. *)
Definition put (k : string) (v : value) (w : gmap string value)
  : gmap string value :=
  <[k := v]> w.

(** How the evaluation of a call, or of the whole script, ends.  A function
    of the page may return, throw, or run forever; in the first two cases it
    leaves a global object behind. *)
Inductive outcome : Type :=
| Return (v : value) (w : gmap string value)
| Throw (e : value) (w : gmap string value)
| Diverge.

(** What the script itself does to the page, in order: the calls it makes
    and the global properties it writes.  Whatever a called function does in
    turn is part of that function's outcome, not of this trace. *)
Inductive event : Type :=
| EvCall (f : fid) (this : value) (args : list value)
| EvWrite (k : string) (v : value).

(** The exception raised by calling a value that is not a function. *)
Definition type_error : value :=
  VObj [ ("name", VStr "TypeError") ].

(** An expression statement drops the value of its expression, and the
    function body ends without [return]: the result is [undefined]. *)
Definition discard (o : outcome) : outcome :=
  match o with
  | Return _ w => Return VUndef w
  | Throw e w => Throw e w
  | Diverge => Diverge
  end.

Definition final_window (o : outcome) : option (gmap string value) :=
  match o with
  | Return _ w | Throw _ w => Some w
  | Diverge => None
  end.

Definition terminates (o : outcome) : Prop :=
  match o with
  | Return _ _ | Throw _ _ => True
  | Diverge => False
  end.

Definition is_call (e : event) : bool :=
  match e with EvCall _ _ _ => true | EvWrite _ _ => false end.

Definition is_write_to (k : string) (e : event) : bool :=
  match e with EvCall _ _ _ => false | EvWrite k' _ => String.eqb k' k end.

(** The number of function calls, and of writes to [k], in a trace. *)
Definition calls (tr : list event) : nat := length (List.filter is_call tr).
Definition writes_to (k : string) (tr : list event) : nat :=
  length (List.filter (is_write_to k) tr).

Section Script.

(** The host page: what the function named [f] does when it is called
    with receiver [this] and arguments [args] on the global object [w]. *)
Variable host : fid -> value -> list value -> gmap string value -> outcome.

(** [callee(args)] with receiver [this]: a function is called, once;
    anything else raises a [TypeError] and leaves the page as it is. *)
Definition call (callee this : value) (args : list value)
    (w : gmap string value) : list event * outcome :=
  match callee with
  | VFun f => ([EvCall f this args], host f this args w)
  | _ => ([], Throw type_error w)
  end.

(** The registration shim, for a table [tbl]:
<<
    if (window.register_implementors) {
        window.register_implementors(tbl);
    } else {
        window.pending_implementors = tbl;
    }
>> *)
Definition shim (tbl : value) (w : gmap string value)
  : list event * outcome :=
  if to_boolean (get w register_implementors) then
    let (tr, o) := call (get w register_implementors) VWindow [tbl] w in
    (tr, discard o)
  else
    ([EvWrite pending_implementors tbl],
     Return VUndef (put pending_implementors tbl w)).

(** The whole script: the table is built, then the shim runs on it. *)
Definition script (w : gmap string value) : list event * outcome :=
  shim implementors w.

(** The three ways a run of the shim can go. *)
Inductive run_case (tbl : value) (w : gmap string value) : Prop :=
| RunCall f :
    get w register_implementors = VFun f ->
    shim tbl w =
      ([EvCall f VWindow [tbl]], discard (host f VWindow [tbl] w)) ->
    run_case tbl w
| RunTypeError :
    to_boolean (get w register_implementors) = true ->
    is_callable (get w register_implementors) = false ->
    shim tbl w = ([], Throw type_error w) ->
    run_case tbl w
| RunPending :
    to_boolean (get w register_implementors) = false ->
    shim tbl w =
      ([EvWrite pending_implementors tbl],
       Return VUndef (put pending_implementors tbl w)) ->
    run_case tbl w.

End Script.

(** ** Vocabulary of the statements *)

(** [r.k] for a value [r]: only objects built by the script are read. *)
Definition field (k : string) (r : value) : option value :=
  match r with
  | VObj props => obj_get k props
  | _ => None
  end.

(** A name is qualified within [crate] when it is a path that starts at the
    crate: [crate::...]. *)
Definition fully_qualified (crate name : string) : bool :=
  String.prefix (crate +:+ "::") name.

(** An implementor record filed under [crate]: exactly the three properties
    [text], [synthetic] and [types], in that order, holding a string, a
    boolean and an array of names qualified within the crate. *)
Definition is_record (crate : string) (r : value) : Prop :=
  exists (text : string) (synthetic : bool) (types : list string),
    r = VObj [ ("text", VStr text);
               ("synthetic", VBool synthetic);
               ("types", VArr (map VStr types)) ]
    /\ Forall (fun name => fully_qualified crate name = true) types.

(** The names under [types] of a record, and of every record of an array. *)
Definition origin_path (r : value) : list string :=
  match field "types" r with
  | Some (VArr names) =>
      flat_map (fun n => match n with VStr s => [s] | _ => [] end) names
  | _ => []
  end.

Definition origin_paths (a : value) : list (list string) :=
  match a with
  | VArr rs => map origin_path rs
  | _ => []
  end.

(** What a run hands over: every call it makes passes exactly [tbl], and
    every write stores exactly [tbl]. *)
Definition hands_over (tbl : value) (e : event) : Prop :=
  match e with
  | EvCall _ _ args => args = [tbl]
  | EvWrite _ v => v = tbl
  end.

(** One run touches exactly one of the two slots: one call and no write to
    the pending slot, or no call and one write to the pending slot. *)
Definition touches_exactly_one (tr : list event) : Prop :=
  (calls tr = 1 /\ writes_to pending_implementors tr = 0)
  \/ (calls tr = 0 /\ writes_to pending_implementors tr = 1).

(** Every write of a trace goes to property [k]. *)
Definition writes_only (k : string) (tr : list event) : Prop :=
  forall k' v, In (EvWrite k' v) tr -> k' = k.

(** *** Sample pages *)

(** A page with three functions: [0] records its argument in a global and
    returns, [1] flags the page and throws, every other one never returns. *)
Definition sample_host (f : fid) (this : value) (args : list value)
    (w : gmap string value) : outcome :=
  match f with
  | 0 => Return (VBool true) (put "all_implementors" (hd VUndef args) w)
  | 1 => Throw (VStr "render failed") (put "rendering" (VBool true) w)
  | _ => Diverge
  end.

(** The search index was loaded first; nothing else is on the page. *)
Definition bare_page : gmap string value :=
  put "searchIndex" (VObj []) ∅.

(** The page script ran first and installed function [f]. *)
Definition ready_page (f : fid) : gmap string value :=
  put register_implementors (VFun f) bare_page.

(** The slot holds [v], whatever [v] is. *)
Definition page_with (v : value) : gmap string value :=
  put register_implementors v bare_page.

(** The number [1] as a double: 2^52 * 2^-52. *)
Definition one : spec_float := S754_finite false 4503599627370496 (-52).

(** ** Vocabulary for tables and descriptors in general *)

(** The object obtained from [{}] by a sequence of statements
    [implementors[k] = v]; [implementors_props] is [build_table assignments]. *)
Definition build_table (stmts : list (string * value))
  : list (string * value) :=
  fold_left (fun o kv => obj_set (fst kv) (snd kv) o) stmts [].

(** The value of the last statement of [stmts] that assigns to [k]. *)
Fixpoint last_assigned (k : string) (stmts : list (string * value))
  : option value :=
  match stmts with
  | [] => None
  | (k', v) :: rest =>
      match last_assigned k rest with
      | Some v' => Some v'
      | None => if String.eqb k' k then Some v else None
      end
  end.

Definition is_digit (c : ascii) : bool :=
  (48 <=? nat_of_ascii c)%nat && (nat_of_ascii c <=? 57)%nat.

Fixpoint all_digits (s : string) : bool :=
  match s with
  | EmptyString => true
  | String c s' => is_digit c && all_digits s'
  end.

(** The keys for which an object is its list of properties in creation
    order, written and read as [obj_set] and [obj_get] do: a key that is
    not written as a number (an object lists its integer keys first, in
    numeric order) and is not [__proto__] (which names the prototype, not a
    property).  Crate names, which are identifiers, are such keys. *)
Definition ordinary_key (k : string) : bool :=
  negb (all_digits k) && negb (String.eqb k "__proto__").

(** The part of [s] after its last colon, [cur] if [s] has none. *)
Fixpoint after_last_colon (s cur : string) : string :=
  match s with
  | EmptyString => cur
  | String c s' =>
      if Ascii.eqb c ":"%char then after_last_colon s' s'
      else after_last_colon s' cur
  end.

(** The last segment of a path [a::b::Name]. *)
Definition last_segment (name : string) : string :=
  after_last_colon name name.

(** The module path [a::b::] of the directory [a/b/]. *)
Fixpoint dir_to_path (dir : string) : string :=
  match dir with
  | EmptyString => EmptyString
  | String c dir' =>
      if Ascii.eqb c "/"%char then "::" +:+ dir_to_path dir'
      else String c (dir_to_path dir')
  end.

(** The link to the trait, as every descriptor of this table has it. *)
Definition drop_link : string :=
  "<a class=" +:+ qt "trait" +:+ " href="
  +:+ qt "https://doc.rust-lang.org/nightly/core/ops/drop/trait.Drop.html"
  +:+ " title=" +:+ qt "trait core::ops::drop::Drop" +:+ ">Drop</a>".

(** The link to the item [nm] of kind [kind] (struct, enum) that lives in
    directory [dir] of [crate]: its page, its full path as tooltip, and its
    name as text. *)
Definition type_link (crate kind dir nm : string) : string :=
  "<a class=" +:+ qt kind
  +:+ " href=" +:+ qt (crate +:+ "/" +:+ dir +:+ kind +:+ "." +:+ nm +:+ ".html")
  +:+ " title=" +:+ qt (kind +:+ " " +:+ crate +:+ "::" +:+ dir_to_path dir +:+ nm)
  +:+ ">" +:+ nm +:+ "</a>".

(** A descriptor [text] filed under [crate] presents the type [name] as an
    implementor of [Drop]: it is [impl ...], then the link to the trait,
    then [ for ], then the link to a struct or enum of the crate whose name
    is the last segment of [name], then the type's parameters and bounds. *)
Definition describes (crate name text : string) : Prop :=
  exists pre kind dir post,
    String.prefix "impl" pre = true
    /\ (kind = "struct" \/ kind = "enum")
    /\ text = pre +:+ drop_link +:+ " for "
              +:+ type_link crate kind dir (last_segment name) +:+ post.

(** [s] from position [n] on. *)
Fixpoint string_drop (n : nat) (s : string) : string :=
  match n, s with
  | O, _ => s
  | S n', String _ s' => string_drop n' s'
  | S _, EmptyString => EmptyString
  end.

(** [s] cut at the first occurrence of [marker]: what is before it and what
    is after it. *)
Fixpoint split_at (marker s : string) : option (string * string) :=
  if String.prefix marker s then
    Some (EmptyString, string_drop (String.length marker) s)
  else
    match s with
    | EmptyString => None
    | String c s' =>
        match split_at marker s' with
        | Some (a, b) => Some (String c a, b)
        | None => None
        end
    end.

(** The four free parts of a descriptor, read off at the markers of the
    two links. *)
Definition decompose (crate name text : string)
  : option (string * string * string * string) :=
  match split_at (drop_link +:+ " for <a class=" +:+ dquote) text with
  | None => None
  | Some (pre, r1) =>
      match split_at (dquote +:+ " href=" +:+ dquote +:+ crate +:+ "/") r1 with
      | None => None
      | Some (kind, r2) =>
          match split_at (kind +:+ "." +:+ last_segment name +:+ ".html"
                          +:+ dquote) r2 with
          | None => None
          | Some (dir, r3) =>
              match split_at (">" +:+ last_segment name +:+ "</a>") r3 with
              | None => None
              | Some (_, post) => Some (pre, kind, dir, post)
              end
          end
      end
  end.

(** All names listed under [types] in a table, in order. *)
Definition all_origin_names (o : list (string * value)) : list string :=
  flat_map (fun kv => concat (origin_paths (snd kv))) o.

(** Another page: its function [0] stores its argument as [sample_host]'s
    does but returns [null], and its other functions throw at once. *)
Definition other_host (f : fid) (this : value) (args : list value)
    (w : gmap string value) : outcome :=
  match f with
  | 0 => Return VNull (put "all_implementors" (hd VUndef args) w)
  | _ => Throw VNull w
  end.

(** * Properties *)

(** ** Ordinary objects *)

Section Objects.

Implicit Types (k : string) (v : value) (o : list (string * value)).

Lemma obj_get_set_eq k v o : obj_get k (obj_set k v o) = Some v.
Proof.
  induction o as [|[k' v'] o IH]; simpl.
  - by rewrite String.eqb_refl.
  - destruct (String.eqb k' k) eqn:E; simpl; rewrite E; [done | apply IH].
Qed.

Lemma obj_get_set_ne k k' v o :
  k <> k' -> obj_get k' (obj_set k v o) = obj_get k' o.
Proof.
  intros Hne. induction o as [|[k0 v0] o IH]; simpl.
  - destruct (String.eqb k k') eqn:E; [|done].
    by apply String.eqb_eq in E.
  - destruct (String.eqb k0 k) eqn:E; simpl; [|by rewrite IH].
    apply String.eqb_eq in E as ->.
    destruct (String.eqb k k') eqn:E'; [|done].
    by apply String.eqb_eq in E'.
Qed.

Lemma obj_keys_set k v o :
  forall k', k' ∈ obj_keys (obj_set k v o) <-> k' = k \/ k' ∈ obj_keys o.
Proof.
  intros k'. unfold obj_keys.
  induction o as [|[k0 v0] o IH]; simpl.
  - rewrite elem_of_cons, elem_of_nil. tauto.
  - destruct (String.eqb k0 k) eqn:E; simpl.
    + apply String.eqb_eq in E as ->. rewrite !elem_of_cons. tauto.
    + rewrite !elem_of_cons, IH. tauto.
Qed.

(** A write to a property that is not there appends it. *)
Lemma obj_set_fresh k v o :
  k ∉ obj_keys o -> obj_set k v o = (o ++ [(k, v)])%list.
Proof.
  unfold obj_keys. induction o as [|[k0 v0] o IH]; simpl; [done|].
  intros Hnin. apply not_elem_of_cons in Hnin as [Hne Hnin].
  destruct (String.eqb k0 k) eqn:E.
  - apply String.eqb_eq in E. congruence.
  - by rewrite IH.
Qed.

(** Property names stay pairwise distinct under writes. *)
Lemma obj_set_NoDup k v o :
  NoDup (obj_keys o) -> NoDup (obj_keys (obj_set k v o)).
Proof.
  unfold obj_keys. induction o as [|[k0 v0] o IH]; simpl.
  - intros _. apply NoDup_singleton.
  - rewrite NoDup_cons. intros [Hnin Hnd].
    destruct (String.eqb k0 k) eqn:E; simpl.
    + by apply NoDup_cons.
    + apply NoDup_cons. split; [|by apply IH].
      intros Hin. apply (obj_keys_set k v o k0) in Hin as [->|Hin].
      * by rewrite String.eqb_refl in E.
      * by apply Hnin.
Qed.

Lemma fold_obj_set_NoDup (stmts : list (string * value)) o :
  NoDup (obj_keys o) ->
  NoDup (obj_keys
           (fold_left (fun o kv => obj_set (fst kv) (snd kv) o) stmts o)).
Proof.
  revert o. induction stmts as [|[k v] stmts IH]; simpl; [done|].
  intros o Hnd. by apply IH, obj_set_NoDup.
Qed.

Lemma obj_get_Some_elem k v o : obj_get k o = Some v -> (k, v) ∈ o.
Proof.
  induction o as [|[k0 v0] o IH]; simpl; [done|].
  destruct (String.eqb k0 k) eqn:E.
  - apply String.eqb_eq in E as ->. intros [= ->]. by left.
  - intros H. right. by apply IH.
Qed.

End Objects.

(** The object the script builds has the seven properties in the order of
    the assignments, each holding the array literal assigned to it. *)
Lemma implementors_props_eq : implementors_props = assignments.
Proof. reflexivity. Qed.

(** ** The table *)

(** Splits a membership in an explicit list into its cases. *)
Ltac split_elem H :=
  repeat match type of H with
         | _ ∈ _ :: _ => apply elem_of_cons in H as [H|H]
         | _ ∈ [] => by apply elem_of_nil in H
         end.

Ltac prove_record :=
  eexists _, _, _; split; [reflexivity | repeat constructor].

Ltac prove_records :=
  eexists; split; [reflexivity | repeat (constructor; [prove_record|]); constructor].

(** C4.  The table's keys are pairwise distinct; every key holds a non-empty
    array of records; the arrays are those of the script, element for
    element in the order written (crate by crate, the origin paths are as
    listed); and whatever a run hands to the callback or stores in the
    pending slot is this very table. *)
Theorem table_keys_unique_sequences_ordered :
  NoDup (obj_keys implementors_props)
  /\ Forall (fun kv => exists r rs, snd kv = VArr (r :: rs)) implementors_props
  /\ implementors_props = assignments
  /\ map (fun kv => (fst kv, origin_paths (snd kv))) implementors_props =
     [ ("bzip2", [ ["bzip2::write::BzEncoder"]; ["bzip2::write::BzDecoder"] ]);
       ("flate2", [ ["flate2::gz::write::GzEncoder"] ]);
       ("generic_array", [ ["generic_array::iter::GenericArrayIter"] ]);
       ("regex_syntax", [ ["regex_syntax::ast::Ast"];
                          ["regex_syntax::ast::ClassSet"];
                          ["regex_syntax::hir::Hir"] ]);
       ("syn", [ ["syn::parse::ParseBuffer"] ]);
       ("thread_local", [ ["thread_local::ThreadLocal"] ]);
       ("zip", [ ["zip::read::ZipFile"]; ["zip::write::ZipWriter"] ]) ]
  /\ (forall host w,
        Forall (hands_over implementors) (fst (script host w))).
Proof.
  split; [|split; [|split; [|split]]].
  - unfold implementors_props. apply fold_obj_set_NoDup. constructor.
  - rewrite implementors_props_eq. unfold assignments.
    repeat (constructor; [simpl; eexists _, _; reflexivity|]). constructor.
  - apply implementors_props_eq.
  - reflexivity.
  - intros host w. unfold script, shim.
    destruct (to_boolean (get w register_implementors)).
    + destruct (get w register_implementors); simpl;
        repeat constructor.
    + simpl. repeat constructor.
Qed.

(** C5.  Every record of the table is an object with exactly the three
    properties [text], [synthetic] and [types]: a string, a boolean, and an
    array of names, each a path qualified within the crate the record is
    filed under. *)
Theorem records_have_three_fields :
  Forall (fun kv => exists rs,
            snd kv = VArr rs /\ Forall (is_record (fst kv)) rs)
         implementors_props.
Proof.
  rewrite implementors_props_eq. unfold assignments.
  repeat (constructor; [simpl; prove_records|]). constructor.
Qed.

(** C9.  Every record of the table has [synthetic] equal to [false]. *)
Theorem no_synthetic_record (crate : string) (rs : list value) (r : value) :
  obj_get crate implementors_props = Some (VArr rs) ->
  r ∈ rs ->
  field "synthetic" r = Some (VBool false).
Proof.
  intros Hget Hr. apply obj_get_Some_elem in Hget.
  rewrite implementors_props_eq in Hget. unfold assignments in Hget.
  split_elem Hget; injection Hget as -> ->;
    [ unfold impls_bzip2 in Hr | unfold impls_flate2 in Hr
    | unfold impls_generic_array in Hr | unfold impls_regex_syntax in Hr
    | unfold impls_syn in Hr | unfold impls_thread_local in Hr
    | unfold impls_zip in Hr ];
    split_elem Hr; subst r; reflexivity.
Qed.

Lemma no_synthetic_record_witness :
  obj_get "zip" implementors_props = Some (VArr impls_zip)
  /\ List.nth 1 impls_zip VUndef ∈ impls_zip
  /\ field "synthetic" (List.nth 1 impls_zip VUndef) = Some (VBool false).
Proof.
  assert (Hget : obj_get "zip" implementors_props = Some (VArr impls_zip))
    by reflexivity.
  assert (Hr : List.nth 1 impls_zip VUndef ∈ impls_zip)
    by (unfold impls_zip; simpl; apply elem_of_cons; right; apply elem_of_cons; by left).
  split; [exact Hget | split; [exact Hr|]].
  exact (no_synthetic_record "zip" impls_zip _ Hget Hr).
Defined.

(** ** The global object and truthiness *)

Lemma get_put_eq k v (w : gmap string value) : get (put k v w) k = v.
Proof. unfold get, put. by rewrite lookup_insert_eq. Qed.

Lemma get_put_ne k k' v (w : gmap string value) :
  k <> k' -> get (put k v w) k' = get w k'.
Proof. intros Hne. unfold get, put. by rewrite lookup_insert_ne. Qed.

Lemma get_absent k (w : gmap string value) : w !! k = None -> get w k = VUndef.
Proof. intros H. unfold get. by rewrite H. Qed.

Lemma get_present k v (w : gmap string value) : w !! k = Some v -> get w k = v.
Proof. intros H. unfold get. by rewrite H. Qed.

(** The falsy values are exactly [undefined], [null], [false], the two
    zeros, [NaN], [0n] and the empty string. *)
Lemma to_boolean_false_iff v :
  to_boolean v = false <->
  v = VUndef \/ v = VNull \/ v = VBool false
  \/ (exists s, v = VNum (S754_zero s)) \/ v = VNum S754_nan
  \/ v = VBigInt 0 \/ v = VStr "".
Proof.
  split.
  - destruct v as [| |b|x|n|s|d|xs|ps| |f]; simpl; try discriminate; auto.
    + intros ->. auto.
    + destruct x; try discriminate; eauto 10.
    + intros H. apply negb_false_iff, Z.eqb_eq in H as ->. auto 10.
    + intros H. apply negb_false_iff, String.eqb_eq in H as ->. auto 10.
  - intros [->|[->|[->|[[s ->]|[->|[->| ->]]]]]]; reflexivity.
Qed.

Lemma callable_truthy v : is_callable v = true -> to_boolean v = true.
Proof. by destruct v. Qed.

Lemma is_callable_fun v : is_callable v = true -> exists f, v = VFun f.
Proof. destruct v; try discriminate. eauto. Qed.

(** ** The shim, branch by branch *)

Lemma final_window_discard o : final_window (discard o) = final_window o.
Proof. by destruct o. Qed.

Lemma terminates_discard o : terminates (discard o) <-> terminates o.
Proof. by destruct o. Qed.

Section Branches.

Variable host : fid -> value -> list value -> gmap string value -> outcome.
Implicit Types (w : gmap string value) (tbl : value).

Lemma shim_function tbl w f :
  get w register_implementors = VFun f ->
  shim host tbl w =
    ([EvCall f VWindow [tbl]], discard (host f VWindow [tbl] w)).
Proof. intros H. unfold shim. by rewrite H. Qed.

Lemma shim_not_callable tbl w :
  to_boolean (get w register_implementors) = true ->
  is_callable (get w register_implementors) = false ->
  shim host tbl w = ([], Throw type_error w).
Proof.
  unfold shim. intros -> Hc.
  by destruct (get w register_implementors).
Qed.

Lemma shim_falsy tbl w :
  to_boolean (get w register_implementors) = false ->
  shim host tbl w =
    ([EvWrite pending_implementors tbl],
     Return VUndef (put pending_implementors tbl w)).
Proof. intros H. unfold shim. by rewrite H. Qed.

Lemma shim_cases tbl w : run_case host tbl w.
Proof.
  destruct (to_boolean (get w register_implementors)) eqn:Ht.
  - destruct (is_callable (get w register_implementors)) eqn:Hc.
    + apply is_callable_fun in Hc as [f Hf].
      eapply RunCall; eauto using shim_function.
    + apply RunTypeError; auto using shim_not_callable.
  - apply RunPending; auto using shim_falsy.
Qed.

(** The script adds no divergence of its own: a run that never ends is a
    run whose callback never ends. *)
Lemma shim_diverges_in_callback tbl w :
  snd (shim host tbl w) = Diverge ->
  exists f,
    get w register_implementors = VFun f
    /\ host f VWindow [tbl] w = Diverge.
Proof.
  destruct (shim_cases tbl w) as [f Hf Hrun|Ht Hc Hrun|Ht Hrun];
    rewrite Hrun; simpl; try discriminate.
  intros Hd. exists f. split; [exact Hf|].
  by destruct (host f VWindow [tbl] w).
Qed.

End Branches.

(** ** The registration shim *)

(** C1.  When the callback slot holds a function before the script runs,
    the run consists of one call of that function, made on the page as the
    script found it, with the table as the only argument; the script ends
    as the callback ends; and the script never writes the pending slot: the
    page it leaves is the page the callback left.  The same holds of the
    shim for any table. *)
Theorem callback_invoked_once
    (host : fid -> value -> list value -> gmap string value -> outcome)
    (w : gmap string value) (f : fid) :
  get w register_implementors = VFun f ->
  script host w =
    ([EvCall f VWindow [implementors]],
     discard (host f VWindow [implementors] w))
  /\ calls (fst (script host w)) = 1
  /\ writes_to pending_implementors (fst (script host w)) = 0
  /\ final_window (snd (script host w)) =
     final_window (host f VWindow [implementors] w)
  /\ (forall tbl,
        shim host tbl w =
          ([EvCall f VWindow [tbl]], discard (host f VWindow [tbl] w))).
Proof.
  intros Hf. unfold script.
  rewrite (shim_function host implementors w f Hf). simpl.
  rewrite final_window_discard.
  repeat split; auto using shim_function.
Qed.

Lemma callback_invoked_once_witness :
  get (ready_page 0) register_implementors = VFun 0
  /\ script sample_host (ready_page 0) =
       ([EvCall 0 VWindow [implementors]],
        Return VUndef (put "all_implementors" implementors (ready_page 0)))
  /\ get (put "all_implementors" implementors (ready_page 0))
         pending_implementors = VUndef.
Proof.
  assert (Hf : get (ready_page 0) register_implementors = VFun 0)
    by (vm_compute; reflexivity).
  split; [exact Hf|]. split.
  - exact (proj1 (callback_invoked_once sample_host (ready_page 0) 0 Hf)).
  - vm_compute; reflexivity.
Defined.

(** C2.  When the callback slot is empty (reading it gives [undefined],
    as it does when the property is not there), the run consists of one
    write: the pending slot receives the table, and no function is called.
    The same holds of the shim for any table. *)
Theorem empty_slot_sets_pending
    (host : fid -> value -> list value -> gmap string value -> outcome)
    (w : gmap string value) :
  get w register_implementors = VUndef ->
  script host w =
    ([EvWrite pending_implementors implementors],
     Return VUndef (put pending_implementors implementors w))
  /\ get (put pending_implementors implementors w) pending_implementors =
     implementors
  /\ calls (fst (script host w)) = 0
  /\ (forall tbl,
        shim host tbl w =
          ([EvWrite pending_implementors tbl],
           Return VUndef (put pending_implementors tbl w))).
Proof.
  intros Hundef.
  assert (Hfalsy : to_boolean (get w register_implementors) = false)
    by (by rewrite Hundef).
  unfold script. rewrite (shim_falsy host implementors w Hfalsy).
  repeat split; auto using shim_falsy, get_put_eq.
Qed.

Lemma empty_slot_sets_pending_witness :
  bare_page !! register_implementors = None
  /\ get bare_page register_implementors = VUndef
  /\ script sample_host bare_page =
       ([EvWrite pending_implementors implementors],
        Return VUndef (put pending_implementors implementors bare_page)).
Proof.
  assert (Hnone : bare_page !! register_implementors = None)
    by (vm_compute; reflexivity).
  assert (Hundef : get bare_page register_implementors = VUndef)
    by (vm_compute; reflexivity).
  split; [exact Hnone|]. split; [exact Hundef|].
  exact (proj1 (empty_slot_sets_pending sample_host bare_page Hundef)).
Defined.

(** C8.  The test is truthiness, not presence: when the callback slot is
    there but holds a falsy value, the run consists of the one write of the
    table to the pending slot, and nothing is called.  [null], [undefined],
    both zeros, [NaN], the empty string, [false] and [0n] are such values. *)
Theorem falsy_slot_takes_pending_branch
    (host : fid -> value -> list value -> gmap string value -> outcome)
    (w : gmap string value) (v : value) :
  w !! register_implementors = Some v ->
  to_boolean v = false ->
  script host w =
    ([EvWrite pending_implementors implementors],
     Return VUndef (put pending_implementors implementors w))
  /\ get (put pending_implementors implementors w) pending_implementors =
     implementors
  /\ calls (fst (script host w)) = 0
  /\ Forall (fun v' => to_boolean v' = false)
       [ VNull; VUndef; VNum (S754_zero false); VNum (S754_zero true);
         VNum S754_nan; VStr ""; VBool false; VBigInt 0 ].
Proof.
  intros Hsome Hv.
  assert (Hfalsy : to_boolean (get w register_implementors) = false)
    by (by rewrite (get_present _ _ _ Hsome)).
  unfold script. rewrite (shim_falsy host implementors w Hfalsy).
  repeat split; auto using get_put_eq.
  repeat constructor.
Qed.

Lemma falsy_slot_takes_pending_branch_witness :
  page_with (VNum (S754_zero false)) !! register_implementors =
    Some (VNum (S754_zero false))
  /\ to_boolean (VNum (S754_zero false)) = false
  /\ script sample_host (page_with (VNum (S754_zero false))) =
       ([EvWrite pending_implementors implementors],
        Return VUndef
          (put pending_implementors implementors
             (page_with (VNum (S754_zero false))))).
Proof.
  assert (Hsome : page_with (VNum (S754_zero false)) !! register_implementors
                  = Some (VNum (S754_zero false)))
    by (vm_compute; reflexivity).
  assert (Hv : to_boolean (VNum (S754_zero false)) = false) by reflexivity.
  split; [exact Hsome|]. split; [exact Hv|].
  exact (proj1 (falsy_slot_takes_pending_branch sample_host _ _ Hsome Hv)).
Defined.

(** C6.  When the callback throws, the script ends by throwing the same
    value on the page the callback left: it catches nothing, calls nothing
    again, and writes nothing. *)
Theorem callback_exception_propagates
    (host : fid -> value -> list value -> gmap string value -> outcome)
    (w w' : gmap string value) (f : fid) (e : value) :
  get w register_implementors = VFun f ->
  host f VWindow [implementors] w = Throw e w' ->
  script host w = ([EvCall f VWindow [implementors]], Throw e w')
  /\ calls (fst (script host w)) = 1
  /\ writes_to pending_implementors (fst (script host w)) = 0
  /\ final_window (snd (script host w)) = Some w'.
Proof.
  intros Hf Hthrow. unfold script.
  rewrite (shim_function host implementors w f Hf), Hthrow. simpl.
  repeat split.
Qed.

Lemma callback_exception_propagates_witness :
  get (ready_page 1) register_implementors = VFun 1
  /\ sample_host 1 VWindow [implementors] (ready_page 1) =
       Throw (VStr "render failed")
             (put "rendering" (VBool true) (ready_page 1))
  /\ script sample_host (ready_page 1) =
       ([EvCall 1 VWindow [implementors]],
        Throw (VStr "render failed")
              (put "rendering" (VBool true) (ready_page 1))).
Proof.
  assert (Hf : get (ready_page 1) register_implementors = VFun 1)
    by (vm_compute; reflexivity).
  assert (Hthrow : sample_host 1 VWindow [implementors] (ready_page 1) =
                   Throw (VStr "render failed")
                         (put "rendering" (VBool true) (ready_page 1)))
    by reflexivity.
  split; [exact Hf|]. split; [exact Hthrow|].
  exact (proj1 (callback_exception_propagates sample_host _ _ 1 _ Hf Hthrow)).
Defined.

(** A callback slot holding an object that is not a function: the test
    succeeds, the call raises a [TypeError], and the run has called nothing
    and written nothing. *)
Lemma truthy_non_function_touches_neither :
  script sample_host (page_with (VObj [])) =
    ([], Throw type_error (page_with (VObj [])))
  /\ ~ touches_exactly_one (fst (script sample_host (page_with (VObj [])))).
Proof.
  assert (Hrun : script sample_host (page_with (VObj [])) =
                 ([], Throw type_error (page_with (VObj []))))
    by (vm_compute; reflexivity).
  split; [exact Hrun|].
  rewrite Hrun. unfold touches_exactly_one. simpl.
  intros [[H _]|[_ H]]; discriminate H.
Qed.

(** C3, as the script has it.  A run takes exactly one branch.  When the
    callback slot holds a function or a falsy value, the run touches exactly
    one of the two slots: one call and no write, or one write to the pending
    slot and no call.  When the slot holds a truthy value that is not a
    function, the call raises a [TypeError]: nothing is called and nothing
    is written.  In no case does the run both call and write, and the script
    writes no global property other than the pending slot: after a call the
    page is the one the callback left, after a [TypeError] it is unchanged,
    and after the write every other property is as before. *)
Theorem shim_takes_one_branch
    (host : fid -> value -> list value -> gmap string value -> outcome)
    (w : gmap string value) :
  (is_callable (get w register_implementors) = true
   \/ to_boolean (get w register_implementors) = false ->
   touches_exactly_one (fst (script host w)))
  /\ (to_boolean (get w register_implementors) = true ->
      is_callable (get w register_implementors) = false ->
      script host w = ([], Throw type_error w))
  /\ (calls (fst (script host w)) = 0
      \/ writes_to pending_implementors (fst (script host w)) = 0)
  /\ writes_only pending_implementors (fst (script host w))
  /\ (forall f,
        get w register_implementors = VFun f ->
        final_window (snd (script host w)) =
        final_window (host f VWindow [implementors] w))
  /\ (to_boolean (get w register_implementors) = false ->
      exists w',
        snd (script host w) = Return VUndef w'
        /\ w' !! pending_implementors = Some implementors
        /\ forall k, k <> pending_implementors -> w' !! k = w !! k).
Proof.
  unfold script, touches_exactly_one, writes_only.
  destruct (shim_cases host implementors w) as [f Hf Hrun|Ht Hc Hrun|Ht Hrun];
    rewrite Hrun; simpl.
  - rewrite Hf. simpl.
    split; [|split; [|split; [|split; [|split]]]].
    + intros _. left. split; reflexivity.
    + discriminate.
    + right. reflexivity.
    + intros k' v [H|[]]. discriminate H.
    + intros f' [= <-]. apply final_window_discard.
    + discriminate.
  - rewrite Ht, Hc.
    split; [|split; [|split; [|split; [|split]]]].
    + intros [H|H]; discriminate H.
    + reflexivity.
    + left. reflexivity.
    + intros k' v [].
    + intros f Hf. rewrite Hf in Hc. discriminate Hc.
    + discriminate.
  - rewrite Ht.
    split; [|split; [|split; [|split; [|split]]]].
    + intros _. right. split; reflexivity.
    + discriminate.
    + left. reflexivity.
    + intros k' v [[= <- _]|[]]. reflexivity.
    + intros f Hf. rewrite Hf in Ht. discriminate Ht.
    + intros _. exists (put pending_implementors implementors w).
      unfold put. split; [reflexivity|]. split.
      * apply lookup_insert_eq.
      * intros k Hk. by apply lookup_insert_ne.
Qed.

Lemma shim_takes_one_branch_witness :
  is_callable (get (ready_page 0) register_implementors) = true
  /\ touches_exactly_one (fst (script sample_host (ready_page 0)))
  /\ to_boolean (get (page_with (VNum one)) register_implementors) = true
  /\ is_callable (get (page_with (VNum one)) register_implementors) = false
  /\ script sample_host (page_with (VNum one)) =
       ([], Throw type_error (page_with (VNum one))).
Proof.
  assert (Hc : is_callable (get (ready_page 0) register_implementors) = true)
    by (vm_compute; reflexivity).
  assert (Ht : to_boolean (get (page_with (VNum one)) register_implementors)
               = true)
    by (vm_compute; reflexivity).
  assert (Hn : is_callable (get (page_with (VNum one)) register_implementors)
               = false)
    by (vm_compute; reflexivity).
  split; [exact Hc|]. split.
  - exact (proj1 (shim_takes_one_branch sample_host (ready_page 0))
                 (or_introl Hc)).
  - split; [exact Ht|]. split; [exact Hn|].
    exact (proj1 (proj2 (shim_takes_one_branch sample_host
                           (page_with (VNum one)))) Ht Hn).
Defined.

(** A callback that never returns: the script calls it and never ends. *)
Lemma script_diverges_with_callback :
  get (ready_page 2) register_implementors = VFun 2
  /\ script sample_host (ready_page 2) =
       ([EvCall 2 VWindow [implementors]], Diverge)
  /\ ~ terminates (snd (script sample_host (ready_page 2))).
Proof.
  assert (Hrun : script sample_host (ready_page 2) =
                 ([EvCall 2 VWindow [implementors]], Diverge))
    by (vm_compute; reflexivity).
  split; [vm_compute; reflexivity|]. split; [exact Hrun|].
  rewrite Hrun. simpl. intros [].
Qed.

(** C7, as the script has it.  The script has no loop of its own: it makes
    one pass over the page, with at most one action, and it comes to an end
    exactly when the function it calls, if it calls one, comes to an end.
    With a falsy callback slot it always ends normally, after the one write
    of the table; with a truthy slot that holds no function it always ends,
    by the [TypeError], having done nothing; with a function in the slot it
    ends as that one call ends, and runs forever only if the call does. *)
Theorem script_terminates_iff_callback
    (host : fid -> value -> list value -> gmap string value -> outcome)
    (w : gmap string value) :
  (terminates (snd (script host w)) <->
   forall f,
     get w register_implementors = VFun f ->
     terminates (host f VWindow [implementors] w))
  /\ (to_boolean (get w register_implementors) = false ->
      script host w =
        ([EvWrite pending_implementors implementors],
         Return VUndef (put pending_implementors implementors w)))
  /\ (to_boolean (get w register_implementors) = true ->
      is_callable (get w register_implementors) = false ->
      script host w = ([], Throw type_error w))
  /\ (forall f,
        get w register_implementors = VFun f ->
        script host w =
          ([EvCall f VWindow [implementors]],
           discard (host f VWindow [implementors] w)))
  /\ length (fst (script host w)) <= 1.
Proof.
  unfold script.
  destruct (shim_cases host implementors w) as [f Hf Hrun|Ht Hc Hrun|Ht Hrun];
    rewrite Hrun; simpl.
  - split; [|split; [|split; [|split]]].
    + rewrite terminates_discard. split.
      * intros Hend f' Hf'. rewrite Hf in Hf'. by injection Hf' as <-.
      * intros Hhost. by apply Hhost.
    + intros Hfalsy. rewrite Hf in Hfalsy. discriminate Hfalsy.
    + intros _ Hc. rewrite Hf in Hc. discriminate Hc.
    + intros f' Hf'. rewrite Hf in Hf'. by injection Hf' as <-.
    + lia.
  - split; [|split; [|split; [|split]]].
    + split; [|done]. intros _ f Hf. rewrite Hf in Hc. discriminate Hc.
    + intros Hfalsy. rewrite Ht in Hfalsy. discriminate Hfalsy.
    + reflexivity.
    + intros f Hf. rewrite Hf in Hc. discriminate Hc.
    + lia.
  - split; [|split; [|split; [|split]]].
    + split; [|done]. intros _ f Hf. rewrite Hf in Ht. discriminate Ht.
    + reflexivity.
    + intros Htrue. rewrite Ht in Htrue. discriminate Htrue.
    + intros f Hf. rewrite Hf in Ht. discriminate Ht.
    + lia.
Qed.

Lemma script_terminates_iff_callback_witness :
  (forall f,
     get (ready_page 0) register_implementors = VFun f ->
     terminates (sample_host f VWindow [implementors] (ready_page 0)))
  /\ terminates (snd (script sample_host (ready_page 0)))
  /\ to_boolean (get bare_page register_implementors) = false
  /\ script sample_host bare_page =
       ([EvWrite pending_implementors implementors],
        Return VUndef (put pending_implementors implementors bare_page)).
Proof.
  assert (Hhost : forall f,
             get (ready_page 0) register_implementors = VFun f ->
             terminates (sample_host f VWindow [implementors] (ready_page 0))).
  { intros f Hf. vm_compute in Hf. injection Hf as <-. exact I. }
  assert (Hfalsy : to_boolean (get bare_page register_implementors) = false)
    by (vm_compute; reflexivity).
  split; [exact Hhost|]. split.
  - exact (proj2 (proj1 (script_terminates_iff_callback sample_host
                           (ready_page 0))) Hhost).
  - split; [exact Hfalsy|].
    exact (proj1 (proj2 (script_terminates_iff_callback sample_host
                           bare_page)) Hfalsy).
Defined.

(** C10.  Two runs that start with the same value in the callback slot
    perform the same actions, whatever else differs between the two pages;
    when that value is falsy both end normally, with the table in the
    pending slot and every property on which the pages agreed still in
    agreement; when it is a function, the runs end alike as soon as the
    function does.  Two runs that start from the same page end in the same
    way, on the same page, after the same actions. *)
Theorem script_deterministic
    (host : fid -> value -> list value -> gmap string value -> outcome)
    (w1 w2 : gmap string value) :
  get w1 register_implementors = get w2 register_implementors ->
  fst (script host w1) = fst (script host w2)
  /\ (to_boolean (get w1 register_implementors) = false ->
      exists w1' w2',
        snd (script host w1) = Return VUndef w1'
        /\ snd (script host w2) = Return VUndef w2'
        /\ w1' !! pending_implementors = w2' !! pending_implementors
        /\ forall k, w1 !! k = w2 !! k -> w1' !! k = w2' !! k)
  /\ (forall f,
        get w1 register_implementors = VFun f ->
        host f VWindow [implementors] w1 = host f VWindow [implementors] w2 ->
        script host w1 = script host w2)
  /\ (w1 = w2 -> script host w1 = script host w2).
Proof.
  intros Hslot. split; [|split; [|split]].
  - unfold script, shim. rewrite <- Hslot.
    destruct (to_boolean (get w1 register_implementors)); [|reflexivity].
    by destruct (get w1 register_implementors).
  - intros Hfalsy.
    assert (Hfalsy2 : to_boolean (get w2 register_implementors) = false)
      by (by rewrite <- Hslot).
    exists (put pending_implementors implementors w1),
           (put pending_implementors implementors w2).
    unfold script.
    rewrite (shim_falsy host implementors w1 Hfalsy),
            (shim_falsy host implementors w2 Hfalsy2).
    unfold put. repeat split.
    + by rewrite !lookup_insert_eq.
    + intros k Hk.
      destruct (decide (pending_implementors = k)) as [<-|Hne].
      * by rewrite !lookup_insert_eq.
      * by rewrite !lookup_insert_ne.
  - intros f Hf Hsame.
    assert (Hf2 : get w2 register_implementors = VFun f)
      by (by rewrite <- Hslot).
    unfold script.
    rewrite (shim_function host implementors w1 f Hf),
            (shim_function host implementors w2 f Hf2).
    by rewrite Hsame.
  - intros ->. reflexivity.
Qed.

Lemma script_deterministic_witness :
  get (ready_page 0) register_implementors =
  get (put "rendering" VNull (ready_page 0)) register_implementors
  /\ fst (script sample_host (ready_page 0)) =
     fst (script sample_host (put "rendering" VNull (ready_page 0))).
Proof.
  assert (Hslot : get (ready_page 0) register_implementors =
                  get (put "rendering" VNull (ready_page 0))
                      register_implementors)
    by (vm_compute; reflexivity).
  split; [exact Hslot|].
  exact (proj1 (script_deterministic sample_host _ _ Hslot)).
Defined.

(** ** Tables built by assignments, in general *)

Lemma fold_obj_set_get k (stmts o : list (string * value)) :
  obj_get k (fold_left (fun o kv => obj_set (fst kv) (snd kv) o) stmts o) =
  match last_assigned k stmts with
  | Some v => Some v
  | None => obj_get k o
  end.
Proof.
  revert o. induction stmts as [|[k' v] rest IH]; intros o; simpl; [done|].
  rewrite IH. destruct (last_assigned k rest) as [v'|]; [done|].
  destruct (String.eqb k' k) eqn:E.
  - apply String.eqb_eq in E as ->. apply obj_get_set_eq.
  - apply obj_get_set_ne. intros ->. by rewrite String.eqb_refl in E.
Qed.

Lemma fold_obj_set_append (stmts o : list (string * value)) :
  NoDup (obj_keys o ++ map fst stmts)%list ->
  fold_left (fun o kv => obj_set (fst kv) (snd kv) o) stmts o =
  (o ++ stmts)%list.
Proof.
  revert o. induction stmts as [|[k v] rest IH]; intros o Hnd; simpl.
  - by rewrite app_nil_r.
  - simpl in Hnd.
    assert (Hfresh : k ∉ obj_keys o).
    { apply NoDup_app in Hnd as (_ & Hdisj & _).
      intros Hin. apply (Hdisj k Hin). by left. }
    rewrite (obj_set_fresh k v o Hfresh), IH.
    + by rewrite <- app_assoc.
    + unfold obj_keys in *. rewrite map_app. simpl.
      by rewrite <- app_assoc.
Qed.

(** X1.  Statements that assign to pairwise distinct ordinary keys build
    the object whose properties are those statements, one for one and in
    the order written: nothing is merged, dropped or moved. *)
Theorem build_table_distinct_keys (stmts : list (string * value)) :
  Forall (fun kv => ordinary_key (fst kv) = true) stmts ->
  NoDup (map fst stmts) ->
  build_table stmts = stmts.
Proof.
  intros _ Hnd. unfold build_table.
  by rewrite fold_obj_set_append.
Qed.

Lemma build_table_distinct_keys_witness :
  Forall (fun kv => ordinary_key (fst kv) = true) assignments
  /\ NoDup (map fst assignments)
  /\ build_table assignments = assignments.
Proof.
  assert (Hord : Forall (fun kv => ordinary_key (fst kv) = true) assignments)
    by (unfold assignments; repeat constructor).
  assert (Hnd : NoDup (map fst assignments)).
  { apply (bool_decide_unpack _). vm_compute. exact I. }
  split; [exact Hord|]. split; [exact Hnd|].
  exact (build_table_distinct_keys assignments Hord Hnd).
Defined.

(** X2.  In a table built by assignments to ordinary keys, repeated keys
    included, reading a key that some statement assigns gives the value of
    the last statement that assigns to it. *)
Theorem build_table_reads_last_assignment
    (stmts : list (string * value)) (k : string) :
  Forall (fun kv => ordinary_key (fst kv) = true) stmts ->
  k ∈ map fst stmts ->
  exists v,
    last_assigned k stmts = Some v
    /\ obj_get k (build_table stmts) = Some v.
Proof.
  intros _ Hin.
  assert (Hlast : exists v, last_assigned k stmts = Some v).
  { induction stmts as [|[k' v] rest IH]; simpl in *.
    - by apply elem_of_nil in Hin.
    - destruct (last_assigned k rest) as [v'|] eqn:E; [eauto|].
      apply elem_of_cons in Hin as [->|Hin].
      + rewrite String.eqb_refl. eauto.
      + destruct (IH Hin) as [v' Hv']. discriminate Hv'. }
  destruct Hlast as [v Hv]. exists v. split; [exact Hv|].
  unfold build_table. rewrite fold_obj_set_get. by rewrite Hv.
Qed.

Lemma build_table_reads_last_assignment_witness :
  Forall (fun kv => ordinary_key (fst kv) = true)
         (("zip", VNull) :: assignments)
  /\ ("zip" ∈ map fst (("zip", VNull) :: assignments))
  /\ exists v,
       last_assigned "zip" (("zip", VNull) :: assignments) = Some v
       /\ obj_get "zip" (build_table (("zip", VNull) :: assignments)) = Some v.
Proof.
  assert (Hord : Forall (fun kv => ordinary_key (fst kv) = true)
                        (("zip", VNull) :: assignments))
    by (unfold assignments; repeat constructor).
  assert (Hin : "zip" ∈ map fst (("zip", VNull) :: assignments))
    by (simpl; apply elem_of_cons; by left).
  split; [exact Hord|]. split; [exact Hin|].
  exact (build_table_reads_last_assignment _ "zip" Hord Hin).
Defined.

(** ** The shim run more than once *)

Lemma slots_differ : pending_implementors <> register_implementors.
Proof. discriminate. Qed.

(** X4.  With no callback on the page, the pending slot holds one table
    only: a run for [tbl2] after a run for [tbl1] ends exactly as a run for
    [tbl2] alone, so [tbl1] is replaced without having been read.  Running
    the script itself a second time therefore repeats its one write and
    leaves the page as the first run left it. *)
Theorem pending_slot_keeps_last_table
    (host : fid -> value -> list value -> gmap string value -> outcome)
    (w : gmap string value) (tbl1 tbl2 : value) :
  to_boolean (get w register_implementors) = false ->
  exists w1,
    snd (shim host tbl1 w) = Return VUndef w1
    /\ shim host tbl2 w1 = shim host tbl2 w
    /\ get w1 pending_implementors = tbl1
    /\ (forall w2,
          snd (shim host tbl2 w1) = Return VUndef w2 ->
          get w2 pending_implementors = tbl2)
    /\ (tbl1 = implementors -> script host w1 = script host w
        /\ snd (script host w1) = Return VUndef w1).
Proof.
  intros Hfalsy. exists (put pending_implementors tbl1 w).
  assert (Hslot : get (put pending_implementors tbl1 w) register_implementors
                  = get w register_implementors)
    by apply get_put_ne, slots_differ.
  assert (Hfalsy1 :
            to_boolean (get (put pending_implementors tbl1 w)
                            register_implementors) = false)
    by (by rewrite Hslot).
  assert (Hput : forall t, put pending_implementors t
                             (put pending_implementors tbl1 w)
                           = put pending_implementors t w)
    by (intros t; unfold put; apply insert_insert_eq).
  rewrite (shim_falsy host tbl1 w Hfalsy).
  rewrite (shim_falsy host tbl2 _ Hfalsy1), (shim_falsy host tbl2 w Hfalsy).
  rewrite Hput. simpl.
  split; [reflexivity|]. split; [reflexivity|].
  split; [apply get_put_eq|]. split.
  - intros w2 [= <-]. apply get_put_eq.
  - intros ->. unfold script.
    rewrite (shim_falsy host implementors _ Hfalsy1),
            (shim_falsy host implementors w Hfalsy), Hput.
    split; reflexivity.
Qed.

Lemma pending_slot_keeps_last_table_witness :
  to_boolean (get bare_page register_implementors) = false
  /\ exists w1,
       snd (shim sample_host (VStr "first") bare_page) = Return VUndef w1
       /\ shim sample_host implementors w1 =
          shim sample_host implementors bare_page.
Proof.
  assert (Hfalsy : to_boolean (get bare_page register_implementors) = false)
    by (vm_compute; reflexivity).
  split; [exact Hfalsy|].
  destruct (pending_slot_keeps_last_table sample_host bare_page
              (VStr "first") implementors Hfalsy) as (w1 & H1 & H2 & _).
  exists w1. exact (conj H1 H2).
Defined.

(** X5.  What a run did tells what the callback slot held, and conversely.
    The run called a function exactly when the slot held a function; it
    wrote the pending slot exactly when the slot held [undefined], [null],
    [false], a zero, [NaN], [0n] or the empty string; and it did nothing at
    all, ending in a [TypeError], exactly when the slot held a truthy value
    that is not a function. *)
Theorem shim_action_reflects_slot
    (host : fid -> value -> list value -> gmap string value -> outcome)
    (tbl : value) (w : gmap string value) :
  (calls (fst (shim host tbl w)) = 1 <->
   exists f, get w register_implementors = VFun f)
  /\ (writes_to pending_implementors (fst (shim host tbl w)) = 1 <->
      get w register_implementors = VUndef
      \/ get w register_implementors = VNull
      \/ get w register_implementors = VBool false
      \/ (exists s, get w register_implementors = VNum (S754_zero s))
      \/ get w register_implementors = VNum S754_nan
      \/ get w register_implementors = VBigInt 0
      \/ get w register_implementors = VStr "")
  /\ (fst (shim host tbl w) = [] <->
      to_boolean (get w register_implementors) = true
      /\ is_callable (get w register_implementors) = false)
  /\ (fst (shim host tbl w) = [] ->
      snd (shim host tbl w) = Throw type_error w).
Proof.
  rewrite <- to_boolean_false_iff.
  destruct (shim_cases host tbl w) as [f Hf Hrun|Ht Hc Hrun|Ht Hrun];
    rewrite Hrun; simpl.
  - rewrite Hf. simpl. split; [|split; [|split]].
    + split; [eauto | reflexivity].
    + split; discriminate.
    + split; [discriminate | intros [_ H]; discriminate H].
    + discriminate.
  - rewrite Ht, Hc. split; [|split; [|split]].
    + split; [discriminate|]. intros [f Hf]. rewrite Hf in Hc. discriminate Hc.
    + split; discriminate.
    + split; auto.
    + reflexivity.
  - rewrite Ht. split; [|split; [|split]].
    + split; [discriminate|]. intros [f Hf]. rewrite Hf in Ht. discriminate Ht.
    + split; reflexivity.
    + split; [discriminate | intros [H _]; discriminate H].
    + discriminate.
Qed.

Lemma shim_action_reflects_slot_witness :
  fst (shim sample_host implementors (page_with (VStr "yes"))) = []
  /\ snd (shim sample_host implementors (page_with (VStr "yes"))) =
     Throw type_error (page_with (VStr "yes")).
Proof.
  assert (Hnil : fst (shim sample_host implementors (page_with (VStr "yes")))
                 = [])
    by (vm_compute; reflexivity).
  split; [exact Hnil|].
  exact (proj2 (proj2 (proj2 (shim_action_reflects_slot sample_host
                                implementors (page_with (VStr "yes")))))
               Hnil).
Defined.

(** ** The descriptors of the table *)

(** Finds the parts of a descriptor and checks that they make it up. *)
Ltac prove_describes :=
  lazymatch goal with
  | |- describes ?c ?n ?t =>
      let d := eval vm_compute in (decompose c n t) in
      lazymatch d with
      | Some (?p, ?k, ?dd, ?po) =>
          exists p, k, dd, po;
          split; [vm_compute; reflexivity|];
          split; [first [left; reflexivity | right; reflexivity]|];
          vm_compute; reflexivity
      end
  end.

(** X6.  Every record of the table names exactly one type, a path of the
    crate it is filed under, and its descriptor presents that type: the
    text is [impl ...], the link to the [Drop] trait, [ for ], and then one
    link whose text is the last segment of the type's name, whose target is
    the page of a struct or enum of that name in a directory of the same
    crate, and whose tooltip is the item's path in that directory.  No type
    is named twice in the table. *)
Theorem descriptors_present_their_types :
  (forall crate rs r,
     obj_get crate implementors_props = Some (VArr rs) ->
     r ∈ rs ->
     exists text name,
       field "text" r = Some (VStr text)
       /\ origin_path r = [name]
       /\ fully_qualified crate name = true
       /\ describes crate name text)
  /\ NoDup (all_origin_names implementors_props).
Proof.
  split.
  - intros crate rs r Hget Hr. apply obj_get_Some_elem in Hget.
    rewrite implementors_props_eq in Hget. unfold assignments in Hget.
    split_elem Hget; injection Hget as -> ->;
      [ unfold impls_bzip2 in Hr | unfold impls_flate2 in Hr
      | unfold impls_generic_array in Hr | unfold impls_regex_syntax in Hr
      | unfold impls_syn in Hr | unfold impls_thread_local in Hr
      | unfold impls_zip in Hr ];
      split_elem Hr; subst r;
      eexists _, _; (split; [reflexivity|]); (split; [reflexivity|]);
      (split; [vm_compute; reflexivity|]); prove_describes.
  - apply (bool_decide_unpack _). vm_compute. exact I.
Qed.

Lemma descriptors_present_their_types_witness :
  obj_get "flate2" implementors_props = Some (VArr impls_flate2)
  /\ (List.nth 0 impls_flate2 VUndef ∈ impls_flate2)
  /\ exists text name,
       field "text" (List.nth 0 impls_flate2 VUndef) = Some (VStr text)
       /\ origin_path (List.nth 0 impls_flate2 VUndef) = [name]
       /\ fully_qualified "flate2" name = true
       /\ describes "flate2" name text.
Proof.
  assert (Hget : obj_get "flate2" implementors_props
                 = Some (VArr impls_flate2)) by reflexivity.
  assert (Hr : List.nth 0 impls_flate2 VUndef ∈ impls_flate2)
    by (unfold impls_flate2; simpl; apply elem_of_cons; by left).
  split; [exact Hget|]. split; [exact Hr|].
  exact (proj1 descriptors_present_their_types "flate2" impls_flate2 _
               Hget Hr).
Defined.

(** ** The shim and the rest of the page *)

(** X7.  A run depends on the functions of the page only through the one
    call it may make, and not on what that call returns: two pages whose
    callback, called on the table, has the same effect and throws alike
    give the same run, however their other functions and the callback's
    return value differ. *)
Theorem shim_uses_only_the_callback
    (host1 host2 : fid -> value -> list value -> gmap string value -> outcome)
    (tbl : value) (w : gmap string value) :
  (forall f,
     get w register_implementors = VFun f ->
     discard (host1 f VWindow [tbl] w) = discard (host2 f VWindow [tbl] w)) ->
  shim host1 tbl w = shim host2 tbl w.
Proof.
  intros Hsame.
  destruct (shim_cases host1 tbl w) as [f Hf Hrun|Ht Hc Hrun|Ht Hrun];
    rewrite Hrun.
  - rewrite (shim_function host2 tbl w f Hf). by rewrite (Hsame f Hf).
  - by rewrite (shim_not_callable host2 tbl w Ht Hc).
  - by rewrite (shim_falsy host2 tbl w Ht).
Qed.

Lemma shim_uses_only_the_callback_witness :
  (forall f,
     get (ready_page 0) register_implementors = VFun f ->
     discard (sample_host f VWindow [implementors] (ready_page 0)) =
     discard (other_host f VWindow [implementors] (ready_page 0)))
  /\ shim sample_host implementors (ready_page 0) =
     shim other_host implementors (ready_page 0).
Proof.
  assert (Hsame : forall f,
             get (ready_page 0) register_implementors = VFun f ->
             discard (sample_host f VWindow [implementors] (ready_page 0)) =
             discard (other_host f VWindow [implementors] (ready_page 0))).
  { intros f Hf. vm_compute in Hf. injection Hf as <-. reflexivity. }
  split; [exact Hsame|].
  exact (shim_uses_only_the_callback sample_host other_host implementors
           (ready_page 0) Hsame).
Defined.
